(** * The chat endpoint and its bridge to the conversational service

    A shallow embedding of [server/chatbot.js] (the bridge [talkToChatbot]),
    [server/index.js] (the [POST /chatbot] endpoint) and of the alternate
    stand-alone server with [POST /send-msg] and [runSample].

    JavaScript values are an inductive type; the console, the calls made to
    the remote [detectIntent] and the HTTP responses handed to [res.send] are
    fields of an explicit world that every operation threads; a [throw] is the
    second constructor of [completion]; a promise is represented by the state
    it settles in.  The last part embeds the language switch of the client's
    home page. *)

From Stdlib Require Import String Ascii List ZArith Lia Bool DecimalString.
Import ListNotations.
Open Scope string_scope.
Set Warnings "-register-all,-notation-for-abbreviation".

(** ** JavaScript values *)
Module Js.

(** The values that can travel through the handlers: what [JSON.parse] or the
    URL-encoded parser puts in [req.body], what the remote client resolves
    with, and the [Error] objects it rejects with.  Objects keep their
    properties in insertion order, as [JSON.stringify] enumerates them.
    A number is given by the string JavaScript prints for it (["5"],
    ["1e+21"], ["NaN"]); no handler computes with one. *)
Inductive value : Type :=
| JUndefined
| JNull
| JBool (b : bool)
| JNum (repr : string)
| JStr (s : string)
| JArr (elems : list value)
| JObj (props : list (string * value))
| JError (name message : string).

(** Result of evaluating an expression or a statement list: a value, or a
    [throw] carrying the thrown value. *)
Inductive completion (A : Type) : Type :=
| Normal (a : A)
| Throw (e : value).
Arguments Normal {A} a.
Arguments Throw {A} e.

(** State in which a promise settles. *)
Inductive settled : Type :=
| Fulfilled (v : value)
| Rejected (e : value).

Definition string_of_nat (n : nat) : string := NilZero.string_of_uint (Nat.to_uint n).

(** Own-property lookup; the first binding of a key is the property. *)
Fixpoint lookup (k : string) (ps : list (string * value)) : option value :=
  match ps with
  | [] => None
  | (k', v) :: rest => if String.eqb k k' then Some v else lookup k rest
  end.

(** The [TypeError] of a conversion to a primitive value that finds neither a
    callable [toString] nor a [valueOf] returning a primitive. *)
Definition conversion_error : value :=
  JError "TypeError" "Cannot convert object to primitive value".

(** [ToString], as applied by ["..." + v] and by a template literal.  An
    object converts through the inherited [toString], which gives
    ["[object Object]"], unless it has a property [toString] of its own: no
    value here is callable, so that property hides the inherited method, the
    inherited [valueOf] returns the object itself, and the conversion throws.
    An array joins the conversions of its elements with commas, [undefined]
    and [null] counting as empty. *)
Fixpoint to_str (v : value) : completion string :=
  match v with
  | JUndefined => Normal "undefined"
  | JNull => Normal "null"
  | JBool true => Normal "true"
  | JBool false => Normal "false"
  | JNum repr => Normal repr
  | JStr s => Normal s
  | JArr xs =>
      (fix join (xs : list value) : completion string :=
         match xs with
         | [] => Normal ""
         | x :: rest =>
             match match x with
                   | JUndefined | JNull => Normal ""
                   | _ => to_str x
                   end with
             | Throw e => Throw e
             | Normal s =>
                 match rest with
                 | [] => Normal s
                 | _ :: _ =>
                     match join rest with
                     | Normal t => Normal (s ++ "," ++ t)
                     | Throw e => Throw e
                     end
                 end
             end
         end) xs
  | JObj ps =>
      match lookup "toString" ps with
      | Some _ => Throw conversion_error
      | None => Normal "[object Object]"
      end
  | JError name message =>
      Normal (if String.eqb name "" then message
              else if String.eqb message "" then name
              else name ++ ": " ++ message)
  end.

(** ["prefix" + v], and a template literal with one substitution at its
    end. *)
Definition str_concat (prefix : string) (v : value) : completion string :=
  match to_str v with
  | Normal s => Normal (prefix ++ s)
  | Throw e => Throw e
  end.

(** [ToBoolean]. *)
Definition truthy (v : value) : bool :=
  match v with
  | JUndefined | JNull => false
  | JBool b => b
  | JNum repr => negb (String.eqb repr "0" || String.eqb repr "NaN")
  | JStr s => negb (String.eqb s "")
  | JArr _ | JObj _ | JError _ _ => true
  end.

(** The [TypeError] of a property read on [undefined] or [null], with the
    message of current engines; no statement below relies on its wording. *)
Definition type_error (k base : string) : value :=
  JError "TypeError"
         ("Cannot read properties of " ++ base ++ " (reading '" ++ k ++ "')").

(** Position of the array index that the property key [k] denotes among the
    first [n] indices, if it denotes one. *)
Fixpoint index_of_key (k : string) (n : nat) : option nat :=
  match n with
  | O => None
  | S m =>
      match index_of_key k m with
      | Some i => Some i
      | None => if String.eqb k (string_of_nat m) then Some m else None
      end
  end.

Definition char_at (s : string) (i : nat) : value :=
  match String.get i s with
  | Some c => JStr (String c EmptyString)
  | None => JUndefined
  end.

(** [v.k] and [v["k"]]: reading a property of [undefined] or [null] throws a
    [TypeError]; a property that is absent reads as [undefined].  Inherited
    (prototype) properties are not represented: none of the keys the handlers
    read ([message], [MSG], [queryResult], [queryText], [fulfillmentText],
    [intent], [displayName]) names one. *)
Definition get_prop (v : value) (k : string) : completion value :=
  match v with
  | JUndefined => Throw (type_error k "undefined")
  | JNull => Throw (type_error k "null")
  | JBool _ | JNum _ => Normal JUndefined
  | JStr s =>
      if String.eqb k "length" then Normal (JNum (string_of_nat (String.length s)))
      else match index_of_key k (String.length s) with
           | Some i => Normal (char_at s i)
           | None => Normal JUndefined
           end
  | JArr xs =>
      if String.eqb k "length" then Normal (JNum (string_of_nat (List.length xs)))
      else match index_of_key k (List.length xs) with
           | Some i => Normal (nth i xs JUndefined)
           | None => Normal JUndefined
           end
  | JObj ps =>
      match lookup k ps with
      | Some x => Normal x
      | None => Normal JUndefined
      end
  | JError name message =>
      if String.eqb k "name" then Normal (JStr name)
      else if String.eqb k "message" then Normal (JStr message)
      else Normal JUndefined
  end.

(** [v[i]] for a numeric literal [i]. *)
Definition get_index (v : value) (i : nat) : completion value :=
  match v with
  | JArr xs => Normal (nth i xs JUndefined)
  | JStr s => Normal (char_at s i)
  | _ => get_prop v (string_of_nat i)
  end.

(** What a client reads back from [JSON.stringify v]: [None] when
    [JSON.stringify] yields [undefined]; a property whose value is
    [undefined] is left out of its object, an [undefined] array element and
    a number that is not finite are written [null], and an [Error] has no
    enumerable property of its own. *)
Fixpoint to_json (v : value) : option value :=
  match v with
  | JUndefined => None
  | JNull => Some JNull
  | JBool b => Some (JBool b)
  | JNum repr =>
      if String.eqb repr "NaN" || String.eqb repr "Infinity"
         || String.eqb repr "-Infinity"
      then Some JNull
      else Some (JNum repr)
  | JStr s => Some (JStr s)
  | JArr xs =>
      Some (JArr (map (fun x => match to_json x with
                                | Some j => j
                                | None => JNull
                                end) xs))
  | JObj ps =>
      Some (JObj ((fix props (ps : list (string * value)) :=
                     match ps with
                     | [] => []
                     | (k, x) :: rest =>
                         match to_json x with
                         | Some j => (k, j) :: props rest
                         | None => props rest
                         end
                     end) ps))
  | JError _ _ => Some (JObj [])
  end.

(** [req.body] after the body parsers ran: they leave an object (the empty
    one when nothing was parsed) or, for a JSON array body, an array. *)
Definition parsed_body (v : value) : bool :=
  match v with
  | JObj _ | JArr _ => true
  | _ => false
  end.

End Js.
Import Js.

(** ** The world the handlers act on *)
Module Runtime.

(** What [res.send] was given, with the status code the response carries. *)
Record Response : Type := mkResponse {
  status : Z;
  payload : value
}.

(** The body a client parses out of a response. *)
Definition json_body (r : Response) : option value := to_json (payload r).

(** Observable effects, oldest first: the lines written by [console.log],
    the requests handed to the remote [detectIntent], the responses sent, and
    the rejections of promises nobody handles. *)
Record World : Type := mkWorld {
  console : list string;
  detect_calls : list value;
  sent : list Response;
  unhandled : list value
}.

Definition empty_world : World := mkWorld [] [] [] [].

(** Statements: they act on the world and complete normally or throw. *)
Definition M (A : Type) : Type := World -> completion A * World.

Definition ret {A} (a : A) : M A := fun w => (Normal a, w).

Definition bind {A B} (c : M A) (k : A -> M B) : M B :=
  fun w =>
    match c w with
    | (Normal a, w') => k a w'
    | (Throw e, w') => (Throw e, w')
    end.

(** An expression that may throw, evaluated as a statement. *)
Definition lift {A} (c : completion A) : M A := fun w => (c, w).

Definition exec {A} (c : M A) (w : World) : World := snd (c w).
Definition result {A} (c : M A) (w : World) : completion A := fst (c w).

Declare Scope js_scope.
Delimit Scope js_scope with js.
Notation "x <- c ;; k" := (bind c (fun x => k))
  (at level 61, c at next level, right associativity) : js_scope.
Notation "c ;; k" := (bind c (fun _ => k))
  (at level 61, right associativity) : js_scope.
Open Scope js_scope.

(** [console.log(line)] *)
Definition console_log (line : string) : M unit :=
  fun w => (Normal tt,
            mkWorld (console w ++ [line]) (detect_calls w) (sent w) (unhandled w)).

(** [res.send(obj)] for an object, on a response not yet sent: Express
    serialises it with [JSON.stringify] and, no status having been set,
    answers 200; it does not throw. *)
Definition res_send (obj : value) : M unit :=
  fun w => (Normal tt,
            mkWorld (console w) (detect_calls w)
                    (sent w ++ [mkResponse 200 obj]) (unhandled w)).

(** [sessionClient.detectIntent(request)]: the request leaves the process and
    the returned promise settles the way the remote service decides. *)
Definition detectIntent (request : value) (outcome : settled) : M settled :=
  fun w => (Normal outcome,
            mkWorld (console w) (detect_calls w ++ [request]) (sent w) (unhandled w)).

(** [p.then(f)]: [f] runs when [p] is fulfilled; the derived promise is
    fulfilled with what [f] returns and rejected with what [f] throws; a
    rejection of [p] passes through. *)
Definition promise_then (p : settled) (f : value -> M value) : M settled :=
  match p with
  | Fulfilled v =>
      fun w => match f v w with
               | (Normal r, w') => (Normal (Fulfilled r), w')
               | (Throw e, w') => (Normal (Rejected e), w')
               end
  | Rejected e => ret (Rejected e)
  end.

(** [p.catch(g)]: [g] runs when [p] is rejected; a fulfilment passes
    through. *)
Definition promise_catch (p : settled) (g : value -> M value) : M settled :=
  match p with
  | Fulfilled v => ret (Fulfilled v)
  | Rejected e =>
      fun w => match g e w with
               | (Normal r, w') => (Normal (Fulfilled r), w')
               | (Throw e', w') => (Normal (Rejected e'), w')
               end
  end.

(** [await p] *)
Definition await (p : settled) : M value :=
  match p with
  | Fulfilled v => ret v
  | Rejected e => lift (Throw e)
  end.

(** Calling an [async function]: its [return] fulfils the promise it hands
    back, a [throw] inside it rejects that promise. *)
Definition async (body : M value) : M settled :=
  fun w => match body w with
           | (Normal v, w') => (Normal (Fulfilled v), w')
           | (Throw e, w') => (Normal (Rejected e), w')
           end.

(** A promise chain used as a statement: nobody holds the last promise, so a
    rejection of it is an unhandled rejection. *)
Definition discard (p : settled) : M unit :=
  match p with
  | Fulfilled _ => ret tt
  | Rejected e =>
      fun w => (Normal tt,
                mkWorld (console w) (detect_calls w) (sent w) (unhandled w ++ [e]))
  end.

(** Express calling a route handler: a handler that throws synchronously is
    answered by the default error handler with status 500; the payload kept
    here is the error it renders, its HTML body is not represented. *)
Definition route (handler : M unit) : World -> World :=
  fun w =>
    match handler w with
    | (Normal _, w') => w'
    | (Throw e, w') =>
        mkWorld (console w') (detect_calls w')
                (sent w' ++ [mkResponse 500 e]) (unhandled w')
    end.

(** The effects that separate a later world [w'] from an earlier one [w],
    and the effects a statement adds to a world. *)
Definition calls_since (w w' : World) : list value :=
  skipn (length (detect_calls w)) (detect_calls w').
Definition sent_since (w w' : World) : list Response :=
  skipn (length (sent w)) (sent w').
Definition console_since (w w' : World) : list string :=
  skipn (length (console w)) (console w').
Definition unhandled_since (w w' : World) : list value :=
  skipn (length (unhandled w)) (unhandled w').

Definition new_calls {A} (c : M A) (w : World) : list value :=
  calls_since w (exec c w).
Definition new_sent {A} (c : M A) (w : World) : list Response :=
  sent_since w (exec c w).
Definition new_console {A} (c : M A) (w : World) : list string :=
  console_since w (exec c w).
Definition new_unhandled {A} (c : M A) (w : World) : list value :=
  unhandled_since w (exec c w).

End Runtime.
Import Runtime.

(** ** [server/chatbot.js] and [server/index.js] *)
Module Chatbot.
Section Process.

(** [dialogflowConfig.projectId], read from [./config] at start-up. *)
Variable projectId : string.
(** [sessionClient.sessionPath], the path builder of the vendored client. *)
Variable client_sessionPath : string -> string -> string.

Definition sessionId : string := "987654".
Definition languageCode : string := "en-US".

(** [const sessionPath = sessionClient.sessionPath(projectId, sessionId)],
    evaluated once, when the module is loaded. *)
Definition sessionPath : string := client_sessionPath projectId sessionId.

(** The object literal bound to [botRequest]. *)
Definition botRequest (message : value) : value :=
  JObj [("session", JStr sessionPath);
        ("queryInput",
         JObj [("text",
                JObj [("text", message);
                      ("languageCode", JStr languageCode)])])].

(** The body of [async function talkToChatbot(message)]. *)
Definition talkToChatbot_body (message : value) (outcome : settled) : M value :=
  line <- lift (str_concat "message " message) ;;
  console_log line ;;
  p <- detectIntent (botRequest message) outcome ;;
  p1 <- promise_then p (fun responses =>
          first <- lift (get_index responses 0) ;;
          requiredResponse <- lift (get_prop first "queryResult") ;;
          ret requiredResponse) ;;
  p2 <- promise_catch p1 (fun error =>
          line <- lift (str_concat "ERROR: " error) ;;
          console_log line ;;
          ret JUndefined) ;;
  response <- await p2 ;;
  ret response.

Definition talkToChatbot (message : value) (outcome : settled) : M settled :=
  async (talkToChatbot_body message outcome).

(** The handler registered by [app.post("/chatbot", ...)], run on the parsed
    body of a request whose remote call settles as [outcome]. *)
Definition chatbot_handler (body : value) (outcome : settled) : M unit :=
  message <- lift (get_prop body "message") ;;
  line <- lift (str_concat "message" message) ;;
  console_log line ;;
  p <- talkToChatbot message outcome ;;
  p1 <- promise_then p (fun response =>
          res_send (JObj [("message", response)]) ;;
          ret JUndefined) ;;
  p2 <- promise_catch p1 (fun error =>
          line <- lift (str_concat "Something went wrong: " error) ;;
          console_log line ;;
          res_send (JObj [("error", JStr "Error occured here")]) ;;
          ret JUndefined) ;;
  discard p2.

(** The server handling requests one after the other. *)
Fixpoint serve (requests : list (value * settled)) (w : World) : World :=
  match requests with
  | [] => w
  | (body, outcome) :: rest => serve rest (route (chatbot_handler body outcome) w)
  end.

End Process.
End Chatbot.

(** ** The alternate stand-alone server with [POST /send-msg] *)
Module SendMsg.
Section Process.

(** [const sessionId = uuid.v4()], drawn once at start-up. *)
Variable sessionId : string.
(** [sessionClient.projectAgentSessionPath] of the client library. *)
Variable client_projectAgentSessionPath : string -> string -> string.

Definition default_projectId : string := "test-buzzwomen-chatbot-urwx".

(** The object literal bound to [request] in [runSample]. *)
Definition request (msg : value) (projectId : string) : value :=
  JObj [("session", JStr (client_projectAgentSessionPath projectId sessionId));
        ("queryInput",
         JObj [("text",
                JObj [("text", msg);
                      ("languageCode", JStr "en-US")])])].

(** The body of [async function runSample(msg, projectId = ...)]. *)
Definition runSample_body (msg : value) (projectId : string) (outcome : settled)
  : M value :=
  p <- detectIntent (request msg projectId) outcome ;;
  responses <- await p ;;
  console_log "Detected intent" ;;
  first <- lift (get_index responses 0) ;;
  result <- lift (get_prop first "queryResult") ;;
  queryText <- lift (get_prop result "queryText") ;;
  line <- lift (str_concat "  Query: " queryText) ;;
  console_log line ;;
  fulfillmentText <- lift (get_prop result "fulfillmentText") ;;
  line <- lift (str_concat "  Response: " fulfillmentText) ;;
  console_log line ;;
  intent <- lift (get_prop result "intent") ;;
  (if truthy intent
   then displayName <- lift (get_prop intent "displayName") ;;
        line <- lift (str_concat "  Intent: " displayName) ;;
        console_log line
   else console_log "  No intent matched.") ;;
  fulfillmentText' <- lift (get_prop result "fulfillmentText") ;;
  ret fulfillmentText'.

Definition runSample (msg : value) (outcome : settled) : M settled :=
  async (runSample_body msg default_projectId outcome).

(** The handler registered by [app.post("/send-msg", ...)]. *)
Definition send_msg_handler (body : value) (outcome : settled) : M unit :=
  msg <- lift (get_prop body "MSG") ;;
  p <- runSample msg outcome ;;
  p1 <- promise_then p (fun data =>
          res_send (JObj [("Reply", data)]) ;;
          ret JUndefined) ;;
  discard p1.

End Process.
End SendMsg.


(** ** The alternate server over a run of requests *)
Module SendMsgServer.
Section Process.

Variable sessionId : string.
Variable client_projectAgentSessionPath : string -> string -> string.

(** The alternate server handling requests one after the other.  The file
    installs no [unhandledRejection] handler, so the rejection a request
    leaves unhandled ends the process (the default of Node 15 and later):
    the requests after it are not served. *)
Fixpoint serve (requests : list (value * settled)) (w : World) : World :=
  match requests with
  | [] => w
  | (body, outcome) :: rest =>
      let w' :=
        route (SendMsg.send_msg_handler sessionId client_projectAgentSessionPath
                 body outcome) w in
      if Nat.ltb (List.length (unhandled w)) (List.length (unhandled w'))
      then w'
      else serve rest w'
  end.

End Process.
End SendMsgServer.

(** ** The interface of the specification *)

(** The response shapes the specification lists for the HTTP API:
    [{ "message": string | null }] or [{ "error": string }]. *)
Definition spec_response_shape (v : value) : bool :=
  match v with
  | JObj [(k, JStr _)] => String.eqb k "message" || String.eqb k "error"
  | JObj [(k, JNull)] => String.eqb k "message"
  | _ => false
  end.

(** Whether the JSON body of a response has one of the listed shapes. *)
Definition spec_response_ok (r : Response) : bool :=
  match json_body r with
  | Some v => spec_response_shape v
  | None => false
  end.

(** ** Concrete inputs *)

(** The dialogflow client's session path template, for concrete runs. *)
Definition dialogflow_sessionPath (project session : string) : string :=
  "projects/" ++ project ++ "/agent/sessions/" ++ session.

(** A remote answer: [responses[0].queryResult] with a fulfillment text and a
    matched intent. *)
Definition sample_queryResult : value :=
  JObj [("queryText", JStr "hello");
        ("fulfillmentText", JStr "Hi! How can I help?");
        ("intent", JObj [("displayName", JStr "Default Welcome Intent")])].
Definition sample_responses : value :=
  JArr [JObj [("queryResult", sample_queryResult)]; JNull; JNull].
Definition sample_failure : value := JError "Error" "14 UNAVAILABLE: failed to connect".
Definition hello_body : value := JObj [("message", JStr "hello")].

(** What [JSON.parse] makes of [{"toString": 1}]: an object that has no
    string conversion; and the parsed body [{"message": {"toString": 1}}]. *)
Definition unprintable : value := JObj [("toString", JNum "1")].
Definition unprintable_body : value := JObj [("message", unprintable)].

(** Two sequential requests with different message text, the first answered,
    the second failing. *)
Definition sample_requests : list (value * settled) :=
  [(hello_body, Fulfilled sample_responses);
   (JObj [("message", JStr "what do you do?")], Rejected sample_failure)].

(** A remote answer whose first element has no [queryResult], a [/send-msg]
    body, and a [/send-msg] run whose first request fails and whose second
    would be answered. *)
Definition sample_no_queryResult : value := JArr [JObj []].
Definition hello_MSG_body : value := JObj [("MSG", JStr "hello")].
Definition sample_send_msg_requests : list (value * settled) :=
  [(hello_MSG_body, Rejected sample_failure);
   (JObj [("MSG", JStr "what do you do?")], Fulfilled sample_responses)].
Definition sample_uuid : string := "1b9d6bcd-bbfd-4b2d-9b5d-ab8dfbbd4bed".

(** A concrete deployment of each server, for concrete runs. *)
Definition sample_chatbot_handler : value -> settled -> M unit :=
  Chatbot.chatbot_handler "buzz-women" dialogflow_sessionPath.
Definition sample_send_msg_handler : value -> settled -> M unit :=
  SendMsg.send_msg_handler sample_uuid dialogflow_sessionPath.

(** ** Vocabulary of the statements *)

(** Whether a value has a string conversion, and the string it converts
    to. *)
Definition printable (v : value) : bool :=
  match to_str v with
  | Normal _ => true
  | Throw _ => false
  end.

Definition text_of (v : value) : string :=
  match to_str v with
  | Normal s => s
  | Throw _ => ""
  end.

(** Whether the reason of a rejected remote call, if it is rejected, has a
    string conversion; every [Error] has. *)
Definition reason_printable (outcome : settled) : bool :=
  match outcome with
  | Fulfilled _ => true
  | Rejected e => printable e
  end.

(** The [text] the bridge put in an outbound request:
    [request.queryInput.text.text]. *)
Definition request_text (request : value) : completion value :=
  match get_prop request "queryInput" with
  | Normal queryInput =>
      match get_prop queryInput "text" with
      | Normal text => get_prop text "text"
      | Throw e => Throw e
      end
  | Throw e => Throw e
  end.

(** [responses[0].queryResult], the expression both servers read the remote
    answer with. *)
Definition queryResult_of (responses : value) : completion value :=
  match get_index responses 0 with
  | Normal first => get_prop first "queryResult"
  | Throw e => Throw e
  end.

(** The error a remote outcome raises in the bridge's promise chain, if any:
    the rejection reason, or what reading [responses[0].queryResult] throws. *)
Definition failure_of (outcome : settled) : option value :=
  match outcome with
  | Rejected e => Some e
  | Fulfilled responses =>
      match queryResult_of responses with
      | Normal _ => None
      | Throw e => Some e
      end
  end.

(** The value the bridge's [then] callback returns, [undefined] when it does
    not run or throws. *)
Definition reply_of (outcome : settled) : value :=
  match outcome with
  | Rejected _ => JUndefined
  | Fulfilled responses =>
      match queryResult_of responses with
      | Normal queryResult => queryResult
      | Throw _ => JUndefined
      end
  end.

(** The way the promise of [talkToChatbot] settles once its first line has
    run: the [catch] callback turns a failure into [undefined], unless
    printing the failure throws. *)
Definition bridge_settles (outcome : settled) : settled :=
  match failure_of outcome with
  | None => Fulfilled (reply_of outcome)
  | Some e =>
      match to_str e with
      | Normal _ => Fulfilled JUndefined
      | Throw e' => Rejected e'
      end
  end.

(** The console line of the bridge's [catch] callback. *)
Definition error_log (outcome : settled) : list string :=
  match failure_of outcome with
  | Some e =>
      match to_str e with
      | Normal s => ["ERROR: " ++ s]
      | Throw _ => []
      end
  | None => []
  end.

(** What the endpoint's chain does with the settled promise of the bridge:
    the console line of its [catch] callback, the response it sends, and the
    rejection it would leave unhandled. *)
Definition endpoint_log (p : settled) : list string :=
  match p with
  | Fulfilled _ => []
  | Rejected e =>
      match to_str e with
      | Normal s => ["Something went wrong: " ++ s]
      | Throw _ => []
      end
  end.

Definition endpoint_answer (p : settled) : list Response :=
  match p with
  | Fulfilled response => [mkResponse 200 (JObj [("message", response)])]
  | Rejected e =>
      match to_str e with
      | Normal _ => [mkResponse 200 (JObj [("error", JStr "Error occured here")])]
      | Throw _ => []
      end
  end.

Definition endpoint_unhandled (p : settled) : list value :=
  match p with
  | Fulfilled _ => []
  | Rejected e =>
      match to_str e with
      | Normal _ => []
      | Throw e' => [e']
      end
  end.

(** The message the endpoint reads from a parsed body, [req.body.message]. *)
Definition message_of (body : value) : value :=
  match get_prop body "message" with
  | Normal message => message
  | Throw _ => JUndefined
  end.

(** The outbound requests a [/chatbot] request with this body leads to, given
    how the bridge builds the request for a message: one, unless reading or
    printing the message throws before the bridge gets that far. *)
Definition requests_built (build : value -> value) (body : value) : list value :=
  match get_prop body "message" with
  | Normal message => if printable message then [build message] else []
  | Throw _ => []
  end.


(** [intent.displayName] as [runSample] prints it. *)
Definition displayName_of (intent : value) : value :=
  match get_prop intent "displayName" with
  | Normal displayName => displayName
  | Throw _ => JUndefined
  end.

(** ** The home page of the client and its language switch

    The component of [client/src/App.js] that keeps the two flags [en1] and
    [hn1], and the click handlers of the header it passes the setters to. *)
Module Home.

(** The two data sets, [Endata] and [Hndata]. *)
Inductive Language : Type := En | Hn.

(** The elements the page is made of, with the data set whose texts they are
    given. *)
Inductive Element : Type :=
| DialogEn
| Dialoghn
| NewHeader (data : Language)
| Hero (data : Language)
| Features (data : Language)
| Testimonial (data : Language)
| FAQ (data : Language)
| Footer (data : Language).

(** The two [useState] cells. *)
Record State : Type := mkState {
  en1 : bool;
  hn1 : bool
}.

(** [useState(true)] and [useState(false)]. *)
Definition initial : State := mkState true false.

Definition setBool1 (b : bool) (s : State) : State := mkState b (hn1 s).
Definition setBool2 (b : bool) (s : State) : State := mkState (en1 s) b.

(** The handlers of the header's two buttons. *)
Definition onClickBtn1 (s : State) : State := setBool1 true (setBool2 false s).
Definition onClickBtn2 (s : State) : State := setBool2 true (setBool1 false s).

(** [{flag && (<div> ... </div>)}] *)
Definition when (flag : bool) (block : list Element) : list (list Element) :=
  if flag then [block] else [].

(** What the component returns: the [div] blocks inside the page, in order. *)
Definition render (s : State) : list (list Element) :=
  (when (en1 s) [DialogEn]
   ++ when (en1 s) [NewHeader En; Hero En]
   ++ when (en1 s) [Features En]
   ++ when (en1 s) [Testimonial En]
   ++ when (en1 s) [FAQ En]
   ++ when (en1 s) [Footer En]
   ++ when (hn1 s) [Dialoghn; NewHeader Hn]
   ++ when (hn1 s) [Hero Hn]
   ++ when (hn1 s) [Features Hn]
   ++ when (hn1 s) [Testimonial Hn]
   ++ when (hn1 s) [FAQ Hn]
   ++ when (hn1 s) [Footer Hn])%list.

(** The two buttons of the header, [English] and [Hindi]. *)
Inductive Button : Type := English | Hindi.

Definition click (b : Button) (s : State) : State :=
  match b with
  | English => onClickBtn1 s
  | Hindi => onClickBtn2 s
  end.

(** A sequence of clicks, the first one first. *)
Fixpoint clicks (bs : list Button) (s : State) : State :=
  match bs with
  | [] => s
  | b :: rest => clicks rest (click b s)
  end.

Definition language_of (e : Element) : Language :=
  match e with
  | DialogEn => En
  | Dialoghn => Hn
  | NewHeader data | Hero data | Features data | Testimonial data
  | FAQ data | Footer data => data
  end.

Definition is_header (e : Element) : bool :=
  match e with
  | NewHeader _ => true
  | _ => false
  end.

End Home.

(** * Properties *)

(** ** Lists of effects *)

Lemma skipn_length_app {A} (l extra : list A) :
  skipn (length l) (l ++ extra) = extra.
Proof.
  induction l as [|x l IH]; simpl; [reflexivity | exact IH].
Qed.

Lemma skipn_length_self {A} (l : list A) : skipn (length l) l = [].
Proof.
  rewrite <- (app_nil_r l) at 2. apply skipn_length_app.
Qed.

(** ** Values *)

Example to_str_array :
  to_str (JArr [JNum "1"; JNull; JStr "a"; JArr [JBool true; JUndefined]])
  = Normal "1,,a,true,".
Proof. reflexivity. Qed.

Example to_str_own_toString : to_str (JArr [JStr "a"; unprintable]) = Throw conversion_error.
Proof. reflexivity. Qed.

Example get_prop_array_index :
  get_prop (JArr [JStr "x"; JStr "y"]) "1" = Normal (JStr "y").
Proof. reflexivity. Qed.

Example to_json_drops_undefined :
  to_json (JObj [("message", JUndefined); ("k", JArr [JUndefined])])
  = Some (JObj [("k", JArr [JNull])]).
Proof. reflexivity. Qed.

(** Reading a property of what the body parsers leave never throws. *)
Lemma parsed_body_get_prop body k :
  parsed_body body = true -> exists v, get_prop body k = Normal v.
Proof.
  destruct body; simpl; try discriminate; intros _.
  - destruct (String.eqb k "length"); [eexists; reflexivity|].
    destruct (index_of_key k (length elems)); eexists; reflexivity.
  - destruct (lookup k props); eexists; reflexivity.
Qed.

(** Induction over values that reaches the elements of an array. *)
Lemma value_elems_ind (P : value -> Prop) :
  P JUndefined -> P JNull -> (forall b, P (JBool b)) -> (forall repr, P (JNum repr)) ->
  (forall s, P (JStr s)) ->
  (forall elems, Forall P elems -> P (JArr elems)) ->
  (forall props, P (JObj props)) ->
  (forall name message, P (JError name message)) ->
  forall v, P v.
Proof.
  intros Hu Hn Hb Hnum Hs Harr Hobj Herr.
  fix IH 1. intros v.
  destruct v as [ | | b | repr | s | elems | props | name message ];
    [exact Hu | exact Hn | apply Hb | apply Hnum | apply Hs | | apply Hobj | apply Herr].
  apply Harr. induction elems as [| x rest IHrest]; constructor; [apply IH | exact IHrest].
Qed.

(** The only error a string conversion throws. *)
Lemma to_str_throw v : forall e, to_str v = Throw e -> e = conversion_error.
Proof.
  induction v as [ | | b | repr | s | elems Helems | props | name message ]
    using value_elems_ind; simpl; try discriminate.
  - destruct b; discriminate.
  - induction Helems as [| x rest Hx _ IHrest]; [discriminate|].
    intros e.
    destruct (match x with
              | JUndefined | JNull => Normal ""
              | _ => to_str x
              end) as [s | e'] eqn:Hconv.
    + destruct rest as [| y rest']; [discriminate|].
      intros H. apply IHrest.
      match type of H with
      | match ?j with _ => _ end = _ => destruct j; [discriminate | exact H]
      end.
    + intros H. injection H as <-.
      destruct x; try discriminate; apply (Hx _ Hconv).
  - destruct (lookup "toString" props); [| discriminate].
    intros e H. injection H as <-. reflexivity.
Qed.

Lemma conversion_error_printable :
  to_str conversion_error = Normal "TypeError: Cannot convert object to primitive value".
Proof. reflexivity. Qed.

(** What a property read throws can be printed. *)
Lemma get_prop_throw_printable v k e :
  get_prop v k = Throw e -> exists s, to_str e = Normal s.
Proof.
  destruct v; simpl; try discriminate.
  - intros H. injection H as <-. eexists. reflexivity.
  - intros H. injection H as <-. eexists. reflexivity.
  - destruct (String.eqb k "length"); [discriminate|].
    destruct (index_of_key k (String.length s)); discriminate.
  - destruct (String.eqb k "length"); [discriminate|].
    destruct (index_of_key k (length elems)); discriminate.
  - destruct (lookup k props); discriminate.
  - destruct (String.eqb k "name"); [discriminate|].
    destruct (String.eqb k "message"); discriminate.
Qed.

Lemma get_index_throw_printable v i e :
  get_index v i = Throw e -> exists s, to_str e = Normal s.
Proof.
  destruct v; try apply get_prop_throw_printable; simpl; discriminate.
Qed.

Lemma queryResult_of_throw_printable responses e :
  queryResult_of responses = Throw e -> exists s, to_str e = Normal s.
Proof.
  unfold queryResult_of.
  destruct (get_index responses 0) as [first | e'] eqn:Hfirst.
  - apply get_prop_throw_printable.
  - intros H. injection H as <-. exact (get_index_throw_printable _ _ _ Hfirst).
Qed.

(** ** The bridge and the endpoint, run symbolically *)

(** Unless the remote call is rejected with a reason that cannot be printed,
    the bridge's promise is fulfilled with the value of its [then]
    callback. *)
Lemma bridge_settles_printable outcome :
  reason_printable outcome = true ->
  bridge_settles outcome = Fulfilled (reply_of outcome).
Proof.
  unfold bridge_settles, reason_printable, printable, failure_of, reply_of.
  destruct outcome as [responses | e].
  - intros _. destruct (queryResult_of responses) as [qr | e] eqn:Hqr; [reflexivity|].
    destruct (queryResult_of_throw_printable _ _ Hqr) as [s ->]. reflexivity.
  - destruct (to_str e); [reflexivity | discriminate].
Qed.

(** In every case the bridge's promise is fulfilled, or rejected with the
    error of a failed string conversion. *)
Lemma bridge_settles_cases outcome :
  (exists v, bridge_settles outcome = Fulfilled v)
  \/ bridge_settles outcome = Rejected conversion_error.
Proof.
  unfold bridge_settles.
  destruct (failure_of outcome) as [e |]; [| left; eexists; reflexivity].
  destruct (to_str e) as [s | e'] eqn:He; [left; eexists; reflexivity|].
  right. now rewrite (to_str_throw _ _ He).
Qed.

(** So the endpoint's chain always answers, with status 200, and leaves
    nothing unhandled. *)
Lemma endpoint_answer_cases outcome :
  (exists p, endpoint_answer (bridge_settles outcome) = [mkResponse 200 p])
  /\ endpoint_unhandled (bridge_settles outcome) = [].
Proof.
  destruct (bridge_settles_cases outcome) as [[v ->] | ->]; simpl.
  - split; [eexists; reflexivity | reflexivity].
  - split; [eexists; reflexivity | reflexivity].
Qed.

Section ChatbotRuns.

Variable projectId : string.
Variable client_sessionPath : string -> string -> string.

Local Notation botRequest := (Chatbot.botRequest projectId client_sessionPath).
Local Notation talkToChatbot := (Chatbot.talkToChatbot projectId client_sessionPath).
Local Notation chatbot_handler := (Chatbot.chatbot_handler projectId client_sessionPath).
Local Notation serve := (Chatbot.serve projectId client_sessionPath).

(** One call of the bridge with a message that can be printed: it logs the
    message (and the error, if any, when that can be printed), and makes one
    remote call. *)
Lemma talkToChatbot_run message text outcome w :
  to_str message = Normal text ->
  talkToChatbot message outcome w
  = (Normal (bridge_settles outcome),
     mkWorld (console w ++ ("message " ++ text) :: error_log outcome)
             (detect_calls w ++ [botRequest message])
             (sent w) (unhandled w)).
Proof.
  intros Htext.
  unfold Chatbot.talkToChatbot, Chatbot.talkToChatbot_body, async, bind at 1,
    lift, str_concat.
  rewrite Htext.
  unfold bind, console_log, detectIntent, bridge_settles, error_log, failure_of,
    reply_of, queryResult_of.
  destruct outcome as [responses | e]; simpl.
  - unfold bind, lift.
    destruct (get_index responses 0) as [first | e]; simpl.
    + destruct (get_prop first "queryResult") as [qr | e]; simpl.
      * reflexivity.
      * unfold str_concat. destruct (to_str e); simpl;
          rewrite <- ?app_assoc; reflexivity.
    + unfold str_concat. destruct (to_str e); simpl;
        rewrite <- ?app_assoc; reflexivity.
  - unfold lift, str_concat. destruct (to_str e); simpl;
      rewrite <- ?app_assoc; reflexivity.
Qed.

(** A message that cannot be printed stops the bridge at its first line: the
    promise is rejected and nothing else happens. *)
Lemma talkToChatbot_throw message e outcome w :
  to_str message = Throw e ->
  talkToChatbot message outcome w = (Normal (Rejected e), w).
Proof.
  intros Htext.
  unfold Chatbot.talkToChatbot, Chatbot.talkToChatbot_body, async, bind at 1,
    lift, str_concat.
  rewrite Htext. reflexivity.
Qed.

(** One request through the endpoint, once [req.body.message] is read and
    printed. *)
Lemma chatbot_handler_run body message text outcome w :
  get_prop body "message" = Normal message ->
  to_str message = Normal text ->
  chatbot_handler body outcome w
  = (Normal tt,
     mkWorld (console w ++ ("message" ++ text) :: ("message " ++ text)
                        :: error_log outcome ++ endpoint_log (bridge_settles outcome))
             (detect_calls w ++ [botRequest message])
             (sent w ++ endpoint_answer (bridge_settles outcome))
             (unhandled w ++ endpoint_unhandled (bridge_settles outcome))).
Proof.
  intros Hmsg Htext.
  unfold Chatbot.chatbot_handler, bind at 1, lift. rewrite Hmsg.
  unfold bind at 1, lift, str_concat. rewrite Htext.
  unfold bind at 1, console_log at 1.
  unfold bind at 1. rewrite (talkToChatbot_run _ _ _ _ Htext).
  destruct (bridge_settles outcome) as [v | e]; simpl.
  - rewrite !app_nil_r, <- app_assoc. reflexivity.
  - unfold bind, ret, promise_then, promise_catch, lift, str_concat; simpl.
    destruct (to_str e); simpl; rewrite ?app_nil_r, <- ?app_assoc; reflexivity.
Qed.

(** A request whose body has no readable [message], or a [message] that
    cannot be printed, stops the handler before it logs, calls or answers
    anything. *)
Lemma chatbot_handler_throw_read body e outcome w :
  get_prop body "message" = Throw e ->
  chatbot_handler body outcome w = (Throw e, w).
Proof.
  intros Hmsg. unfold Chatbot.chatbot_handler, bind at 1, lift.
  rewrite Hmsg. reflexivity.
Qed.

Lemma chatbot_handler_throw_print body message e outcome w :
  get_prop body "message" = Normal message ->
  to_str message = Throw e ->
  chatbot_handler body outcome w = (Throw e, w).
Proof.
  intros Hmsg Htext. unfold Chatbot.chatbot_handler, bind at 1, lift.
  rewrite Hmsg. unfold bind at 1, lift, str_concat. rewrite Htext. reflexivity.
Qed.

(** One routed request, whatever its body: the requests it adds are those of
    [requests_built], it is answered once, and nothing is left unhandled. *)
Lemma route_chatbot_effects body outcome w :
  detect_calls (route (chatbot_handler body outcome) w)
  = (detect_calls w ++ requests_built botRequest body)%list
  /\ unhandled (route (chatbot_handler body outcome) w) = unhandled w
  /\ exists r, sent (route (chatbot_handler body outcome) w) = (sent w ++ [r])%list.
Proof.
  unfold route, requests_built, printable.
  destruct (get_prop body "message") as [m | e] eqn:Hm.
  - destruct (to_str m) as [text | e] eqn:Htext.
    + rewrite (chatbot_handler_run _ _ _ _ _ Hm Htext). simpl.
      destruct (endpoint_answer_cases outcome) as [[p ->] ->].
      rewrite app_nil_r. repeat split. eexists. reflexivity.
    + rewrite (chatbot_handler_throw_print _ _ _ _ _ Hm Htext). simpl.
      rewrite app_nil_r. repeat split. eexists. reflexivity.
  - rewrite (chatbot_handler_throw_read _ _ _ _ Hm). simpl.
    rewrite app_nil_r. repeat split. eexists. reflexivity.
Qed.

Lemma serve_effects requests :
  forall w,
    detect_calls (serve requests w)
    = (detect_calls w ++ flat_map (fun r => requests_built botRequest (fst r)) requests)%list
    /\ unhandled (serve requests w) = unhandled w.
Proof.
  induction requests as [| [body outcome] rest IH]; intros w; simpl.
  - now rewrite app_nil_r.
  - destruct (route_chatbot_effects body outcome w) as [Hcalls [Hun _]].
    destruct (IH (route (chatbot_handler body outcome) w)) as [-> ->].
    rewrite Hcalls, Hun, <- app_assoc. split; reflexivity.
Qed.

End ChatbotRuns.

(** ** The bridge and the [POST /chatbot] endpoint *)
Section ChatbotClaims.

Variable projectId : string.
Variable client_sessionPath : string -> string -> string.

Local Notation botRequest := (Chatbot.botRequest projectId client_sessionPath).
Local Notation talkToChatbot := (Chatbot.talkToChatbot projectId client_sessionPath).
Local Notation chatbot_handler := (Chatbot.chatbot_handler projectId client_sessionPath).
Local Notation serve := (Chatbot.serve projectId client_sessionPath).

(** C3. For every message [m] and whatever the remote service will answer,
    the request the bridge hands to [detectIntent] is
    [{session: S, queryInput: {text: {text: m, languageCode: "en-US"}}}]
    with [S] the session path built at start-up from the project id and the
    session id ["987654"].  It builds exactly one such request for a message
    that has a string conversion, as every string has; a message without one
    makes its first line throw, and then it builds none. *)
Theorem outbound_request_shape (m : value) (outcome : settled) (w : World) :
  new_calls (talkToChatbot m outcome) w
  = if printable m
    then [JObj [("session", JStr (client_sessionPath projectId "987654"));
                ("queryInput",
                 JObj [("text",
                        JObj [("text", m); ("languageCode", JStr "en-US")])])]]
    else [].
Proof.
  unfold new_calls, calls_since, exec, printable.
  destruct (to_str m) as [text | e] eqn:Htext.
  - rewrite (talkToChatbot_run _ _ _ _ _ _ Htext). simpl.
    apply skipn_length_app.
  - rewrite (talkToChatbot_throw _ _ _ _ _ _ Htext). simpl.
    apply skipn_length_self.
Qed.

(** C1, amended. When the message has a string conversion, the remote call is
    fulfilled and [responses[0].queryResult] can be read, the endpoint
    answers once, with status 200 and the payload [{message: queryResult}]:
    the whole [queryResult] object, not its fulfillment text alone. *)
Theorem chatbot_success_sends_queryResult
    (body message responses first queryResult : value) (text : string) (w : World) :
  get_prop body "message" = Normal message ->
  to_str message = Normal text ->
  get_index responses 0 = Normal first ->
  get_prop first "queryResult" = Normal queryResult ->
  new_sent (chatbot_handler body (Fulfilled responses)) w
  = [mkResponse 200 (JObj [("message", queryResult)])].
Proof.
  intros Hmsg Htext Hfirst Hqr.
  unfold new_sent, sent_since, exec.
  rewrite (chatbot_handler_run _ _ _ _ _ _ _ Hmsg Htext). simpl.
  unfold bridge_settles, failure_of, reply_of, queryResult_of.
  rewrite Hfirst, Hqr. simpl.
  apply skipn_length_app.
Qed.

(** C2, amended. When [detectIntent] rejects with a reason [e] that has a
    string conversion, as every [Error] has, the bridge logs ["ERROR: " + e],
    leaves no rejection behind and resolves with [undefined]; the endpoint
    then hands [{message: undefined}] to [res.send] with status 200, whose
    JSON body is the empty object: the [message] field is absent, not [null],
    and there is no [error] field. *)
Theorem remote_failure_sends_empty_object
    (body message e : value) (text reason : string) (w : World) :
  get_prop body "message" = Normal message ->
  to_str message = Normal text ->
  to_str e = Normal reason ->
  result (talkToChatbot message (Rejected e)) w = Normal (Fulfilled JUndefined)
  /\ new_console (talkToChatbot message (Rejected e)) w
     = ["message " ++ text; "ERROR: " ++ reason]
  /\ new_unhandled (chatbot_handler body (Rejected e)) w = []
  /\ new_sent (chatbot_handler body (Rejected e)) w
     = [mkResponse 200 (JObj [("message", JUndefined)])]
  /\ map json_body (new_sent (chatbot_handler body (Rejected e)) w)
     = [Some (JObj [])].
Proof.
  intros Hmsg Htext Hreason.
  unfold result, new_console, console_since, new_unhandled, unhandled_since,
    new_sent, sent_since, exec.
  rewrite (talkToChatbot_run _ _ _ _ _ _ Htext),
    (chatbot_handler_run _ _ _ _ _ _ _ Hmsg Htext).
  unfold bridge_settles, error_log, failure_of. rewrite Hreason. simpl.
  rewrite !skipn_length_app. repeat split; reflexivity.
Qed.

(** C4, amended. Every request that reaches the [POST /chatbot] handler with
    a [message] that has a string conversion is answered exactly once and
    with status 200, whether the remote call is fulfilled, is rejected, or is
    fulfilled with something the bridge cannot read. *)
Theorem chatbot_status_200_when_message_prints
    (body message : value) (text : string) (outcome : settled) (w : World) :
  get_prop body "message" = Normal message ->
  to_str message = Normal text ->
  map status (sent_since w (route (chatbot_handler body outcome) w)) = [200%Z].
Proof.
  intros Hmsg Htext.
  unfold route, sent_since.
  rewrite (chatbot_handler_run _ _ _ _ _ _ _ Hmsg Htext). simpl.
  destruct (endpoint_answer_cases outcome) as [[p ->] _].
  rewrite skipn_length_app. reflexivity.
Qed.


(** C6. In every sequential run of requests, the outbound requests are those
    the bridge builds for the requests' own messages, one for each request
    whose message can be read and printed, and every one of them carries the
    same session: the path built at start-up from the fixed session id
    ["987654"], whatever the messages and whatever the remote service
    answered before. *)
Theorem session_shared_across_requests
    (requests : list (value * settled)) (w : World) :
  calls_since w (serve requests w)
  = flat_map (fun r => requests_built botRequest (fst r)) requests
  /\ Forall (fun call => get_prop call "session"
                         = Normal (JStr (client_sessionPath projectId "987654")))
            (calls_since w (serve requests w)).
Proof.
  assert (Hcalls : calls_since w (serve requests w)
                   = flat_map (fun r => requests_built botRequest (fst r)) requests).
  { unfold calls_since.
    destruct (serve_effects projectId client_sessionPath requests w) as [-> _].
    apply skipn_length_app. }
  split; [exact Hcalls|].
  rewrite Hcalls. apply Forall_forall. intros call Hin.
  apply in_flat_map in Hin. destruct Hin as [r [_ Hin]].
  unfold requests_built in Hin.
  destruct (get_prop (fst r) "message") as [m |]; [| contradiction].
  destruct (printable m); [| contradiction].
  destruct Hin as [<- | []]. reflexivity.
Qed.

(** C8. A body whose [message] is the empty string, or that has no
    [message] at all (it then reads as [undefined]), is not rejected: the
    endpoint calls the bridge, the outbound request's
    [queryInput.text.text] is that very value, and the answer has status
    200. *)
Theorem empty_or_missing_message_passes_through
    (body message : value) (outcome : settled) (w : World) :
  get_prop body "message" = Normal message ->
  message = JStr "" \/ message = JUndefined ->
  exists request,
    new_calls (chatbot_handler body outcome) w = [request]
    /\ request_text request = Normal message
    /\ map status (sent_since w (route (chatbot_handler body outcome) w)) = [200%Z].
Proof.
  intros Hmsg Hcase. exists (botRequest message).
  assert (Htext : exists text, to_str message = Normal text)
    by (destruct Hcase as [-> | ->]; eexists; reflexivity).
  destruct Htext as [text Htext].
  unfold new_calls, calls_since, exec, route, sent_since.
  rewrite (chatbot_handler_run _ _ _ _ _ _ _ Hmsg Htext). simpl.
  destruct (endpoint_answer_cases outcome) as [[p ->] _].
  rewrite !skipn_length_app. repeat split; reflexivity.
Qed.

(** C10. The request the bridge builds for a message depends on the message
    alone: after any two histories of served requests, from any two worlds
    and whatever the remote service is about to answer, two calls of
    [talkToChatbot] with the same message hand the same request to
    [detectIntent]. *)
Theorem request_independent_of_history
    (history1 history2 : list (value * settled)) (m : value)
    (outcome1 outcome2 : settled) (w1 w2 : World) :
  new_calls (talkToChatbot m outcome1) (serve history1 w1)
  = new_calls (talkToChatbot m outcome2) (serve history2 w2).
Proof.
  unfold new_calls, calls_since, exec.
  destruct (to_str m) as [text | e] eqn:Htext.
  - rewrite !(talkToChatbot_run _ _ _ _ _ _ Htext). simpl.
    now rewrite !skipn_length_app.
  - rewrite !(talkToChatbot_throw _ _ _ _ _ _ Htext). simpl.
    now rewrite !skipn_length_self.
Qed.

End ChatbotClaims.

(** ** The alternate server, run symbolically *)

(** A value that has one readable property has them all readable. *)
Lemma get_prop_readable v k x k' :
  get_prop v k = Normal x -> exists y, get_prop v k' = Normal y.
Proof.
  destruct v; simpl; try discriminate; intros _.
  - eexists; reflexivity.
  - eexists; reflexivity.
  - destruct (String.eqb k' "length"); [eexists; reflexivity|].
    destruct (index_of_key k' (String.length s)); eexists; reflexivity.
  - destruct (String.eqb k' "length"); [eexists; reflexivity|].
    destruct (index_of_key k' (length elems)); eexists; reflexivity.
  - destruct (lookup k' props); eexists; reflexivity.
  - destruct (String.eqb k' "name"); [eexists; reflexivity|].
    destruct (String.eqb k' "message"); eexists; reflexivity.
Qed.

Lemma truthy_readable v k : truthy v = true -> exists y, get_prop v k = Normal y.
Proof.
  destruct v; simpl; try discriminate; intros _.
  - eexists; reflexivity.
  - eexists; reflexivity.
  - destruct (String.eqb k "length"); [eexists; reflexivity|].
    destruct (index_of_key k (String.length s)); eexists; reflexivity.
  - destruct (String.eqb k "length"); [eexists; reflexivity|].
    destruct (index_of_key k (length elems)); eexists; reflexivity.
  - destruct (lookup k props); eexists; reflexivity.
  - destruct (String.eqb k "name"); [eexists; reflexivity|].
    destruct (String.eqb k "message"); eexists; reflexivity.
Qed.

(** Case analysis on the next read or conversion a run is stuck on. *)
Ltac next_step :=
  match goal with
  | |- context [match get_index ?v ?i with _ => _ end] =>
      destruct (get_index v i) eqn:?
  | |- context [match get_prop ?v ?k with _ => _ end] =>
      destruct (get_prop v k) eqn:?
  | |- context [match to_str ?v with _ => _ end] =>
      destruct (to_str v) eqn:?
  | |- context [if truthy ?v then _ else _] =>
      destruct (truthy v) eqn:?
  end; simpl.

Section SendMsgRuns.

Variable sessionId : string.
Variable client_projectAgentSessionPath : string -> string -> string.

Local Notation request := (SendMsg.request sessionId client_projectAgentSessionPath).
Local Notation runSample := (SendMsg.runSample sessionId client_projectAgentSessionPath).
Local Notation send_msg_handler :=
  (SendMsg.send_msg_handler sessionId client_projectAgentSessionPath).

(** [runSample] has no handler of its own: a rejected remote call rejects
    it, before it logs anything. *)
Lemma runSample_rejected msg e w :
  runSample msg (Rejected e) w
  = (Normal (Rejected e),
     mkWorld (console w)
             (detect_calls w ++ [request msg SendMsg.default_projectId])
             (sent w) (unhandled w)).
Proof. reflexivity. Qed.

(** However the remote call settles, [runSample] settles too, having made
    one remote call, written to the console only, and answered nothing. *)
Lemma runSample_effects msg outcome w :
  exists p lines,
    runSample msg outcome w
    = (Normal p,
       mkWorld (console w ++ lines)
               (detect_calls w ++ [request msg SendMsg.default_projectId])
               (sent w) (unhandled w)).
Proof.
  destruct outcome as [responses | e].
  2:{ exists (Rejected e), []. rewrite runSample_rejected, app_nil_r. reflexivity. }
  unfold SendMsg.runSample, SendMsg.runSample_body, async, bind, detectIntent,
    await, ret, lift, console_log, str_concat; simpl.
  repeat next_step;
    rewrite <- ?app_assoc; eexists _, _; reflexivity.
Qed.

(** A fulfilled call whose result cannot be read rejects [runSample] right
    after its first console line. *)
Lemma runSample_unreadable msg responses e w :
  queryResult_of responses = Throw e
  \/ (exists res, queryResult_of responses = Normal res
                  /\ get_prop res "queryText" = Throw e) ->
  runSample msg (Fulfilled responses) w
  = (Normal (Rejected e),
     mkWorld (console w ++ ["Detected intent"])
             (detect_calls w ++ [request msg SendMsg.default_projectId])
             (sent w) (unhandled w)).
Proof.
  unfold queryResult_of.
  unfold SendMsg.runSample, SendMsg.runSample_body, async, bind, detectIntent,
    await, ret, lift, console_log; simpl.
  intros [Hthrow | [res [Hres Hqt]]].
  - destruct (get_index responses 0) as [first | e1]; simpl.
    + rewrite Hthrow. reflexivity.
    + injection Hthrow as ->. reflexivity.
  - destruct (get_index responses 0) as [first | e1]; [| discriminate]. simpl.
    rewrite Hres. simpl. rewrite Hqt. reflexivity.
Qed.

(** The console lines of a successful [runSample], when all it prints has a
    string conversion. *)
Lemma runSample_trace msg responses res queryText fulfillmentText intent w :
  queryResult_of responses = Normal res ->
  get_prop res "queryText" = Normal queryText ->
  get_prop res "fulfillmentText" = Normal fulfillmentText ->
  get_prop res "intent" = Normal intent ->
  printable queryText = true ->
  printable fulfillmentText = true ->
  (truthy intent = true -> printable (displayName_of intent) = true) ->
  runSample msg (Fulfilled responses) w
  = (Normal (Fulfilled fulfillmentText),
     mkWorld (console w
              ++ ["Detected intent";
                  "  Query: " ++ text_of queryText;
                  "  Response: " ++ text_of fulfillmentText;
                  if truthy intent
                  then "  Intent: " ++ text_of (displayName_of intent)
                  else "  No intent matched."])
             (detect_calls w ++ [request msg SendMsg.default_projectId])
             (sent w) (unhandled w)).
Proof.
  unfold queryResult_of, printable, text_of, displayName_of.
  intros Hres Hqt Hft Hintent Hq Hf Hd.
  unfold SendMsg.runSample, SendMsg.runSample_body, async, bind, detectIntent,
    await, ret, lift, console_log, str_concat; simpl.
  destruct (get_index responses 0) as [first | e1]; [| discriminate]. simpl.
  rewrite Hres. simpl. rewrite Hqt. simpl.
  destruct (to_str queryText) as [q | ?]; [| discriminate]. simpl.
  rewrite Hft. simpl.
  destruct (to_str fulfillmentText) as [f | ?]; [| discriminate]. simpl.
  rewrite Hintent. simpl.
  destruct (truthy intent) eqn:Htruthy; simpl.
  - destruct (truthy_readable intent "displayName" Htruthy) as [dn Hdn].
    rewrite Hdn in *. simpl. specialize (Hd eq_refl).
    destruct (to_str dn) as [d | ?]; [| discriminate]. simpl.
    rewrite <- !app_assoc. reflexivity.
  - rewrite <- !app_assoc. reflexivity.
Qed.

(** Whatever [runSample] is fulfilled with is the fulfillment text of a
    remote result that could be read. *)
Lemma runSample_reply_sound msg outcome data w w' :
  runSample msg outcome w = (Normal (Fulfilled data), w') ->
  exists responses res,
    outcome = Fulfilled responses
    /\ queryResult_of responses = Normal res
    /\ get_prop res "fulfillmentText" = Normal data.
Proof.
  destruct outcome as [responses | e]; [| rewrite runSample_rejected; discriminate].
  unfold SendMsg.runSample, SendMsg.runSample_body, async, bind, detectIntent,
    await, ret, lift, console_log, str_concat, queryResult_of; simpl.
  intros H. exists responses.
  destruct (get_index responses 0) as [first |]; simpl in *; [| discriminate].
  destruct (get_prop first "queryResult") as [res |]; simpl in *; [| discriminate].
  exists res. split; [reflexivity|]. split; [reflexivity|].
  destruct (get_prop res "queryText") as [qt |]; simpl in *; [| discriminate].
  destruct (to_str qt); simpl in *; [| discriminate].
  destruct (get_prop res "fulfillmentText") as [ft |]; simpl in *; [| discriminate].
  destruct (to_str ft); simpl in *; [| discriminate].
  destruct (get_prop res "intent") as [intent |]; simpl in *; [| discriminate].
  destruct (truthy intent); simpl in *.
  - destruct (get_prop intent "displayName") as [dn |]; simpl in *; [| discriminate].
    destruct (to_str dn); simpl in *; [| discriminate].
    injection H as <- _. reflexivity.
  - injection H as <- _. reflexivity.
Qed.

(** The [/send-msg] handler once [req.body.MSG] is read: what it sends and
    what it leaves unhandled is decided by how [runSample] settled. *)
Lemma send_msg_handler_run body msg outcome p w' w :
  get_prop body "MSG" = Normal msg ->
  runSample msg outcome w = (Normal p, w') ->
  send_msg_handler body outcome w
  = (Normal tt,
     match p with
     | Fulfilled data =>
         mkWorld (console w') (detect_calls w')
                 (sent w' ++ [mkResponse 200 (JObj [("Reply", data)])])
                 (unhandled w')
     | Rejected e =>
         mkWorld (console w') (detect_calls w') (sent w') (unhandled w' ++ [e])
     end).
Proof.
  intros Hmsg Hrun.
  unfold SendMsg.send_msg_handler, bind at 1, lift. rewrite Hmsg.
  unfold bind at 1. rewrite Hrun.
  destruct p; reflexivity.
Qed.


End SendMsgRuns.

(** ** The [POST /send-msg] variant and the HTTP interface *)
Section InterfaceClaims.

Variable projectId : string.
Variable client_sessionPath : string -> string -> string.
Variable sessionId : string.
Variable client_projectAgentSessionPath : string -> string -> string.

Local Notation botRequest := (Chatbot.botRequest projectId client_sessionPath).
Local Notation chatbot_handler := (Chatbot.chatbot_handler projectId client_sessionPath).
Local Notation request := (SendMsg.request sessionId client_projectAgentSessionPath).
Local Notation runSample := (SendMsg.runSample sessionId client_projectAgentSessionPath).
Local Notation send_msg_handler :=
  (SendMsg.send_msg_handler sessionId client_projectAgentSessionPath).

(** C9. In the [/send-msg] variant a rejected [detectIntent] rejects
    [runSample], the handler's chain has only a [then], so the rejection
    stays unhandled and the request gets no response at all: the handler
    sends none and, as it did not throw, neither does Express. *)
Theorem send_msg_rejection_unanswered (body e : value) (w : World) :
  parsed_body body = true ->
  (exists msg, get_prop body "MSG" = Normal msg
               /\ result (runSample msg (Rejected e)) w = Normal (Rejected e))
  /\ sent (route (send_msg_handler body (Rejected e)) w) = sent w
  /\ unhandled (route (send_msg_handler body (Rejected e)) w)
     = (unhandled w ++ [e])%list.
Proof.
  intros Hbody.
  destruct (parsed_body_get_prop body "MSG" Hbody) as [msg Hmsg].
  split; [exists msg; split; [exact Hmsg | reflexivity]|].
  unfold route.
  rewrite (send_msg_handler_run _ _ _ _ _ _ _ _ Hmsg (runSample_rejected _ _ _ _ _)).
  split; reflexivity.
Qed.

(** C7, amended. The two variants do not share one interface.
    [POST /chatbot] reads the [message] property of the parsed body and, when
    that has a string conversion, makes one remote call and answers once,
    with [{message: v}], where [v] is the remote [queryResult] object or
    [undefined], or with [{error: "Error occured here"}].  [POST /send-msg]
    reads the [MSG] property, makes one remote call and either answers
    [{Reply: data}], with [data] the fulfillment text of the remote result,
    or does not answer at all. *)
Theorem http_interfaces (body : value) (outcome : settled) (w : World) :
  parsed_body body = true ->
  printable (message_of body) = true ->
  (new_calls (chatbot_handler body outcome) w = [botRequest (message_of body)]
   /\ (new_sent (chatbot_handler body outcome) w
       = [mkResponse 200 (JObj [("message", reply_of outcome)])]
       \/ new_sent (chatbot_handler body outcome) w
          = [mkResponse 200 (JObj [("error", JStr "Error occured here")])]))
  /\ (exists msg,
       get_prop body "MSG" = Normal msg
       /\ new_calls (send_msg_handler body outcome) w
          = [request msg SendMsg.default_projectId]
       /\ (new_sent (send_msg_handler body outcome) w = []
           \/ exists data responses res,
               new_sent (send_msg_handler body outcome) w
               = [mkResponse 200 (JObj [("Reply", data)])]
               /\ outcome = Fulfilled responses
               /\ queryResult_of responses = Normal res
               /\ get_prop res "fulfillmentText" = Normal data)).
Proof.
  intros Hbody Hprint. split.
  - destruct (parsed_body_get_prop body "message" Hbody) as [m Hm].
    unfold message_of in *. rewrite Hm in *.
    unfold printable in Hprint.
    destruct (to_str m) as [text |] eqn:Htext; [| discriminate].
    unfold new_calls, calls_since, new_sent, sent_since, exec.
    rewrite (chatbot_handler_run _ _ _ _ _ _ _ Hm Htext). simpl.
    rewrite !skipn_length_app. split; [reflexivity|].
    unfold bridge_settles.
    destruct (failure_of outcome) as [e |] eqn:Hfail; [| left; reflexivity].
    assert (Hreply : reply_of outcome = JUndefined).
    { unfold failure_of, reply_of in *.
      destruct outcome as [responses | e0]; [| reflexivity].
      destruct (queryResult_of responses); [discriminate | reflexivity]. }
    destruct (to_str e) as [s | e'] eqn:He; simpl.
    + left. now rewrite Hreply.
    + right. rewrite (to_str_throw _ _ He). reflexivity.
  - destruct (parsed_body_get_prop body "MSG" Hbody) as [msg Hmsg].
    exists msg. split; [exact Hmsg|].
    unfold new_calls, calls_since, new_sent, sent_since, exec.
    destruct (runSample_effects sessionId client_projectAgentSessionPath
                msg outcome w) as [p [lines Hrun]].
    rewrite (send_msg_handler_run _ _ _ _ _ _ _ _ Hmsg Hrun).
    split.
    + destruct p; simpl; apply skipn_length_app.
    + destruct p as [data | e]; simpl.
      * right.
        destruct (runSample_reply_sound _ _ _ _ _ _ _ Hrun)
          as [responses [res [Hout [Hres Hft]]]].
        exists data, responses, res.
        split; [apply skipn_length_app|]. repeat split; assumption.
      * left. apply skipn_length_self.
Qed.

End InterfaceClaims.

(** * Further properties *)

(** ** [POST /chatbot] over whole runs *)
Section ChatbotRunProperties.

Variable projectId : string.
Variable client_sessionPath : string -> string -> string.

Local Notation talkToChatbot := (Chatbot.talkToChatbot projectId client_sessionPath).
Local Notation chatbot_handler := (Chatbot.chatbot_handler projectId client_sessionPath).
Local Notation serve := (Chatbot.serve projectId client_sessionPath).

Lemma serve_sent requests :
  Forall (fun r => parsed_body (fst r) = true
                   /\ printable (message_of (fst r)) = true
                   /\ reason_printable (snd r) = true) requests ->
  forall w,
    sent (serve requests w)
    = (sent w
       ++ map (fun r => mkResponse 200 (JObj [("message", reply_of (snd r))]))
              requests)%list.
Proof.
  induction 1 as [| [body outcome] rest [Hbody [Hprint Hreason]] _ IH];
    intros w; simpl in *.
  - now rewrite app_nil_r.
  - destruct (parsed_body_get_prop body "message" Hbody) as [m Hm].
    unfold message_of, printable in Hprint. rewrite Hm in Hprint.
    destruct (to_str m) as [text |] eqn:Htext; [| discriminate].
    rewrite IH. unfold route.
    rewrite (chatbot_handler_run _ _ _ _ _ _ _ Hm Htext),
      (bridge_settles_printable _ Hreason). simpl.
    rewrite <- app_assoc. reflexivity.
Qed.

Lemma serve_answers requests :
  forall w, exists answers,
    sent (serve requests w) = (sent w ++ answers)%list
    /\ length answers = length requests.
Proof.
  induction requests as [| [body outcome] rest IH]; intros w; simpl.
  - exists []. now rewrite app_nil_r.
  - destruct (route_chatbot_effects projectId client_sessionPath body outcome w)
      as [_ [_ [r Hr]]].
    destruct (IH (route (chatbot_handler body outcome) w)) as [answers [Hs Hlen]].
    exists (r :: answers). rewrite Hs, Hr, <- app_assoc. simpl.
    split; [reflexivity | now rewrite Hlen].
Qed.

(** X1. Over any sequential run of requests whose bodies are parsed, whose
    messages have a string conversion and whose remote calls are not
    rejected with a reason that lacks one, the endpoint answers every request
    exactly once and in order, always with status 200, and the answer to a
    request is [{message: v}] with [v] fixed by the way that request's own
    remote call settled: it depends neither on the message sent nor on any
    other request of the run. *)
Theorem chatbot_run_answers_each_request
    (requests : list (value * settled)) (w : World) :
  Forall (fun r => parsed_body (fst r) = true
                   /\ printable (message_of (fst r)) = true
                   /\ reason_printable (snd r) = true) requests ->
  sent_since w (serve requests w)
  = map (fun r => mkResponse 200
                    (JObj [("message",
                            match snd r with
                            | Rejected _ => JUndefined
                            | Fulfilled responses =>
                                match queryResult_of responses with
                                | Normal queryResult => queryResult
                                | Throw _ => JUndefined
                                end
                            end)]))
        requests.
Proof.
  intros Hrequests. unfold sent_since.
  rewrite (serve_sent _ Hrequests). apply skipn_length_app.
Qed.

(** X2. Whatever the bodies and the remote outcomes of a run, the
    [/chatbot] server never leaves a rejected promise unhandled, and every
    request gets exactly one response: the handler's, or the one Express
    sends when the handler throws. *)
Theorem chatbot_run_no_unhandled_rejection
    (requests : list (value * settled)) (w : World) :
  unhandled (serve requests w) = unhandled w
  /\ length (sent_since w (serve requests w)) = length requests.
Proof.
  split.
  - apply (serve_effects projectId client_sessionPath requests w).
  - destruct (serve_answers requests w) as [answers [Hs Hlen]].
    unfold sent_since. now rewrite Hs, skipn_length_app.
Qed.

(** X3. For a message that has a string conversion and a remote call not
    rejected with a reason that lacks one, the JSON body of the [/chatbot]
    answer is the empty object exactly in three cases that a client
    therefore cannot tell apart: the remote call was rejected, reading
    [responses[0].queryResult] threw, or the remote answer had no
    [queryResult]. *)
Theorem chatbot_empty_body_cases
    (body message : value) (text : string) (outcome : settled) (w : World) :
  get_prop body "message" = Normal message ->
  to_str message = Normal text ->
  reason_printable outcome = true ->
  map json_body (new_sent (chatbot_handler body outcome) w) = [Some (JObj [])]
  <-> ((exists e, outcome = Rejected e)
       \/ (exists responses e,
             outcome = Fulfilled responses /\ queryResult_of responses = Throw e)
       \/ (exists responses,
             outcome = Fulfilled responses
             /\ queryResult_of responses = Normal JUndefined)).
Proof.
  intros Hm Htext Hreason.
  unfold new_sent, sent_since, exec.
  rewrite (chatbot_handler_run _ _ _ _ _ _ _ Hm Htext),
    (bridge_settles_printable _ Hreason). simpl.
  rewrite skipn_length_app. unfold json_body. simpl.
  destruct outcome as [responses | e]; simpl.
  - destruct (queryResult_of responses) as [qr | e] eqn:Hqr.
    + split.
      * intros H. right. right. exists responses. split; [reflexivity|].
        destruct qr as [ | | | repr | | | | ]; simpl in H; try discriminate.
        -- exact Hqr.
        -- destruct (String.eqb repr "NaN" || String.eqb repr "Infinity"
                     || String.eqb repr "-Infinity"); discriminate.
      * intros [[e He] | [[r [e [Hr He]]] | [r [Hr Hu]]]].
        -- discriminate.
        -- injection Hr as <-. rewrite Hqr in He. discriminate.
        -- injection Hr as <-. rewrite Hqr in Hu. injection Hu as ->. reflexivity.
    + split; [| reflexivity].
      intros _. right. left. exists responses, e. split; [reflexivity | exact Hqr].
  - split; [| reflexivity]. intros _. left. exists e. reflexivity.
Qed.

(** X4. A remote answer whose first element has no [queryResult] is taken
    without complaint: for a message that has a string conversion, the bridge
    resolves with [undefined] and logs no ["ERROR: "] line, only the two
    message lines of the endpoint and the bridge, and the endpoint answers
    [{message: undefined}]. *)
Theorem missing_queryResult_is_silent
    (body message responses first : value) (text : string) (w : World) :
  get_prop body "message" = Normal message ->
  to_str message = Normal text ->
  get_index responses 0 = Normal first ->
  get_prop first "queryResult" = Normal JUndefined ->
  new_console (chatbot_handler body (Fulfilled responses)) w
  = ["message" ++ text; "message " ++ text]
  /\ new_sent (chatbot_handler body (Fulfilled responses)) w
     = [mkResponse 200 (JObj [("message", JUndefined)])].
Proof.
  intros Hm Htext Hfirst Hqr.
  unfold new_console, console_since, new_sent, sent_since, exec.
  rewrite (chatbot_handler_run _ _ _ _ _ _ _ Hm Htext). simpl.
  unfold bridge_settles, error_log, failure_of, reply_of, queryResult_of.
  rewrite Hfirst, Hqr. simpl.
  rewrite !skipn_length_app. split; reflexivity.
Qed.

(** X5. When the remote call is fulfilled but reading
    [responses[0].queryResult] throws (an empty [responses] array, say), the
    error thrown inside the [then] callback reaches the bridge's own [catch]:
    for a message that has a string conversion, the error is logged after
    ["ERROR: "] like a rejection, the bridge resolves with [undefined], and
    the endpoint still answers with status 200. *)
Theorem unreadable_answer_is_logged
    (body message responses e : value) (text : string) (w : World) :
  get_prop body "message" = Normal message ->
  to_str message = Normal text ->
  queryResult_of responses = Throw e ->
  result (talkToChatbot message (Fulfilled responses)) w
  = Normal (Fulfilled JUndefined)
  /\ new_console (chatbot_handler body (Fulfilled responses)) w
     = ["message" ++ text; "message " ++ text; "ERROR: " ++ text_of e]
  /\ new_sent (chatbot_handler body (Fulfilled responses)) w
     = [mkResponse 200 (JObj [("message", JUndefined)])].
Proof.
  intros Hm Htext Hqr.
  destruct (queryResult_of_throw_printable _ _ Hqr) as [reason Hreason].
  unfold result, new_console, console_since, new_sent, sent_since, exec.
  rewrite (talkToChatbot_run _ _ _ _ _ _ Htext),
    (chatbot_handler_run _ _ _ _ _ _ _ Hm Htext). simpl.
  unfold bridge_settles, error_log, failure_of, text_of. rewrite Hqr, Hreason.
  simpl. rewrite !skipn_length_app. repeat split; reflexivity.
Qed.

End ChatbotRunProperties.

(** ** [POST /send-msg]: traces and whole runs *)
Section SendMsgRunProperties.

Variable sessionId : string.
Variable client_projectAgentSessionPath : string -> string -> string.

Local Notation request := (SendMsg.request sessionId client_projectAgentSessionPath).
Local Notation runSample := (SendMsg.runSample sessionId client_projectAgentSessionPath).
Local Notation send_msg_handler :=
  (SendMsg.send_msg_handler sessionId client_projectAgentSessionPath).
Local Notation serve := (SendMsgServer.serve sessionId client_projectAgentSessionPath).


(** X6. In the [/send-msg] variant a fulfilled call whose result cannot be
    read ([responses[0].queryResult] throws, or [queryResult] is missing so
    that reading its [queryText] throws) is handled like a rejection, but
    only after ["Detected intent"] was printed: the request gets no response
    and the [TypeError] stays unhandled. *)
Theorem send_msg_unreadable_answer_unanswered
    (body responses e : value) (w : World) :
  parsed_body body = true ->
  queryResult_of responses = Throw e
  \/ (exists res, queryResult_of responses = Normal res
                  /\ get_prop res "queryText" = Throw e) ->
  console_since w (route (send_msg_handler body (Fulfilled responses)) w)
  = ["Detected intent"]
  /\ sent (route (send_msg_handler body (Fulfilled responses)) w) = sent w
  /\ unhandled (route (send_msg_handler body (Fulfilled responses)) w)
     = (unhandled w ++ [e])%list.
Proof.
  intros Hbody Hbad.
  destruct (parsed_body_get_prop body "MSG" Hbody) as [msg Hmsg].
  unfold route, console_since.
  rewrite (send_msg_handler_run _ _ _ _ _ _ _ _ Hmsg
             (runSample_unreadable _ _ msg responses e w Hbad)). simpl.
  rewrite skipn_length_app. repeat split; reflexivity.
Qed.

(** X7. A successful [/send-msg] request, when the query text, the
    fulfillment text and the display name of a truthy [intent] have string
    conversions, prints exactly four lines, the banner, the query text, the
    fulfillment text and then either the matched intent's display name or
    ["  No intent matched."] when the result has no truthy [intent], and
    answers [{Reply: fulfillmentText}] with status 200. *)
Theorem send_msg_success_trace
    (body responses res queryText fulfillmentText intent : value) (w : World) :
  parsed_body body = true ->
  queryResult_of responses = Normal res ->
  get_prop res "queryText" = Normal queryText ->
  get_prop res "fulfillmentText" = Normal fulfillmentText ->
  get_prop res "intent" = Normal intent ->
  printable queryText = true ->
  printable fulfillmentText = true ->
  (truthy intent = true -> printable (displayName_of intent) = true) ->
  new_console (send_msg_handler body (Fulfilled responses)) w
  = ["Detected intent";
     "  Query: " ++ text_of queryText;
     "  Response: " ++ text_of fulfillmentText;
     if truthy intent
     then "  Intent: " ++ text_of (displayName_of intent)
     else "  No intent matched."]
  /\ new_sent (send_msg_handler body (Fulfilled responses)) w
     = [mkResponse 200 (JObj [("Reply", fulfillmentText)])]
  /\ new_unhandled (send_msg_handler body (Fulfilled responses)) w = [].
Proof.
  intros Hbody Hres Hqt Hft Hintent Hq Hf Hd.
  destruct (parsed_body_get_prop body "MSG" Hbody) as [msg Hmsg].
  unfold new_console, console_since, new_sent, sent_since, new_unhandled,
    unhandled_since, exec.
  rewrite (send_msg_handler_run _ _ _ _ _ _ _ _ Hmsg
             (runSample_trace _ _ msg _ _ _ _ _ w Hres Hqt Hft Hintent Hq Hf Hd)).
  simpl.
  rewrite !skipn_length_app, skipn_length_self. repeat split; reflexivity.
Qed.



End SendMsgRunProperties.

(** ** The language switch of the home page *)

Lemma clicks_app bs bs' s :
  Home.clicks (bs ++ bs') s = Home.clicks bs' (Home.clicks bs s).
Proof.
  revert s. induction bs as [| b bs IH]; intros s; simpl; [reflexivity | apply IH].
Qed.

Lemma clicks_exclusive bs s :
  Home.en1 s = negb (Home.hn1 s) ->
  Home.en1 (Home.clicks bs s) = negb (Home.hn1 (Home.clicks bs s)).
Proof.
  revert s. induction bs as [| b bs IH]; intros s Hs; simpl; [exact Hs|].
  apply IH. destruct b; reflexivity.
Qed.

(** X10. Whatever buttons were clicked since the page was loaded, exactly one
    of the two flags is set: the page shows six blocks, all in one language,
    and among them exactly one header, so the two language buttons are always
    there to click. *)
Theorem home_shows_one_language (bs : list Home.Button) :
  Home.en1 (Home.clicks bs Home.initial)
  = negb (Home.hn1 (Home.clicks bs Home.initial))
  /\ length (Home.render (Home.clicks bs Home.initial)) = 6
  /\ (exists lang,
        Forall (fun e => Home.language_of e = lang)
               (concat (Home.render (Home.clicks bs Home.initial))))
  /\ length (filter Home.is_header
                    (concat (Home.render (Home.clicks bs Home.initial)))) = 1.
Proof.
  pose proof (clicks_exclusive bs Home.initial eq_refl) as Hex.
  split; [exact Hex|].
  destruct (Home.clicks bs Home.initial) as [en hn]. simpl in Hex. subst en.
  destruct hn; simpl.
  - repeat split; [exists Home.Hn; repeat constructor].
  - repeat split; [exists Home.En; repeat constructor].
Qed.

(** X11. The page depends only on the last button clicked, not on the state
    before nor on earlier clicks: after [English] it is the English page,
    after [Hindi] the Hindi page, element for element. *)
Theorem home_last_click_wins (bs : list Home.Button) (b : Home.Button) (s : Home.State) :
  concat (Home.render (Home.clicks (bs ++ [b]) s))
  = match b with
    | Home.English =>
        [Home.DialogEn; Home.NewHeader Home.En; Home.Hero Home.En;
         Home.Features Home.En; Home.Testimonial Home.En; Home.FAQ Home.En;
         Home.Footer Home.En]
    | Home.Hindi =>
        [Home.Dialoghn; Home.NewHeader Home.Hn; Home.Hero Home.Hn;
         Home.Features Home.Hn; Home.Testimonial Home.Hn; Home.FAQ Home.Hn;
         Home.Footer Home.Hn]
    end.
Proof.
  rewrite clicks_app. simpl.
  destruct b; reflexivity.
Qed.

(** ** Concrete runs *)

Example two_requests_one_session :
  map (fun call => get_prop call "session")
      (calls_since empty_world
         (Chatbot.serve "buzz-women" dialogflow_sessionPath sample_requests empty_world))
  = [Normal (JStr "projects/buzz-women/agent/sessions/987654");
     Normal (JStr "projects/buzz-women/agent/sessions/987654")].
Proof. reflexivity. Qed.

Example send_msg_run_stops_at_first_failure :
  length (calls_since empty_world
            (SendMsgServer.serve sample_uuid dialogflow_sessionPath
               sample_send_msg_requests empty_world)) = 1
  /\ sent (SendMsgServer.serve sample_uuid dialogflow_sessionPath
             sample_send_msg_requests empty_world) = []
  /\ unhandled (SendMsgServer.serve sample_uuid dialogflow_sessionPath
                  sample_send_msg_requests empty_world) = [sample_failure].
Proof. repeat split. Qed.

Lemma chatbot_success_sends_queryResult_witness :
  get_prop hello_body "message" = Normal (JStr "hello")
  /\ new_sent (sample_chatbot_handler hello_body (Fulfilled sample_responses)) empty_world
     = [mkResponse 200 (JObj [("message", sample_queryResult)])].
Proof.
  split; [reflexivity|].
  apply (chatbot_success_sends_queryResult "buzz-women" dialogflow_sessionPath
           hello_body (JStr "hello") sample_responses
           (JObj [("queryResult", sample_queryResult)]) sample_queryResult
           "hello" empty_world);
    reflexivity.
Defined.

(** C1, as stated, fails: for the message ["hello"], answered with the
    fulfillment text ["Hi! How can I help?"] and a matched intent, the JSON
    body is not [{"message": "Hi! How can I help?"}]; it carries the whole
    [queryResult], the matched intent included. *)
Lemma chatbot_success_body_is_not_the_text :
  queryResult_of sample_responses = Normal sample_queryResult
  /\ get_prop sample_queryResult "fulfillmentText" = Normal (JStr "Hi! How can I help?")
  /\ map json_body
       (new_sent (sample_chatbot_handler hello_body (Fulfilled sample_responses))
                 empty_world)
     <> [Some (JObj [("message", JStr "Hi! How can I help?")])]
  /\ map json_body
       (new_sent (sample_chatbot_handler hello_body (Fulfilled sample_responses))
                 empty_world)
     = [Some (JObj [("message",
                     JObj [("queryText", JStr "hello");
                           ("fulfillmentText", JStr "Hi! How can I help?");
                           ("intent",
                            JObj [("displayName", JStr "Default Welcome Intent")])])])].
Proof.
  repeat split; try reflexivity.
  vm_compute. discriminate.
Qed.

Lemma remote_failure_sends_empty_object_witness :
  get_prop hello_body "message" = Normal (JStr "hello")
  /\ to_str sample_failure = Normal "Error: 14 UNAVAILABLE: failed to connect"
  /\ new_sent (sample_chatbot_handler hello_body (Rejected sample_failure)) empty_world
     = [mkResponse 200 (JObj [("message", JUndefined)])].
Proof.
  do 2 (split; [reflexivity|]).
  apply (remote_failure_sends_empty_object "buzz-women" dialogflow_sessionPath
           hello_body (JStr "hello") sample_failure
           "hello" "Error: 14 UNAVAILABLE: failed to connect" empty_world);
    reflexivity.
Defined.

(** C2, as stated, fails: when the remote call is rejected the JSON body of
    the answer is the empty object, not [{"message": null}]; the value given
    to [res.send] under [message] is [undefined], which is not [null]. *)
Lemma remote_failure_body_has_no_null_message :
  map json_body
    (new_sent (sample_chatbot_handler hello_body (Rejected sample_failure)) empty_world)
  <> [Some (JObj [("message", JNull)])]
  /\ map json_body
       (new_sent (sample_chatbot_handler hello_body (Rejected sample_failure)) empty_world)
     = [Some (JObj [])]
  /\ map payload
       (new_sent (sample_chatbot_handler hello_body (Rejected sample_failure)) empty_world)
     = [JObj [("message", JUndefined)]].
Proof.
  repeat split; try reflexivity.
  vm_compute. discriminate.
Qed.

Lemma chatbot_status_200_when_message_prints_witness :
  get_prop hello_body "message" = Normal (JStr "hello")
  /\ to_str (JStr "hello") = Normal "hello"
  /\ map status
       (sent_since empty_world
          (route (sample_chatbot_handler hello_body (Rejected sample_failure))
                 empty_world))
     = [200%Z].
Proof.
  do 2 (split; [reflexivity|]).
  apply (chatbot_status_200_when_message_prints "buzz-women" dialogflow_sessionPath
           hello_body (JStr "hello") "hello"); reflexivity.
Defined.

(** C4, as stated, fails: the request whose JSON body is
    [{"message": {"toString": 1}}] passes the body parser, the handler
    throws when it builds its first console line, no remote call is made,
    and the request is answered with status 500, not 200. *)
Lemma chatbot_unprintable_message_gets_500 :
  parsed_body unprintable_body = true
  /\ get_prop unprintable_body "message" = Normal unprintable
  /\ to_str unprintable = Throw conversion_error
  /\ map status
       (sent_since empty_world
          (route (sample_chatbot_handler unprintable_body (Fulfilled sample_responses))
                 empty_world))
     = [500%Z]
  /\ map status
       (sent_since empty_world
          (route (sample_chatbot_handler unprintable_body (Fulfilled sample_responses))
                 empty_world))
     <> [200%Z]
  /\ calls_since empty_world
       (route (sample_chatbot_handler unprintable_body (Fulfilled sample_responses))
              empty_world)
     = [].
Proof.
  repeat split; try reflexivity.
  vm_compute. discriminate.
Qed.



Lemma empty_or_missing_message_passes_through_witness :
  (exists request,
      new_calls (sample_chatbot_handler (JObj [("message", JStr "")])
                   (Fulfilled sample_responses)) empty_world = [request]
      /\ request_text request = Normal (JStr "")
      /\ map status
           (sent_since empty_world
              (route (sample_chatbot_handler (JObj [("message", JStr "")])
                        (Fulfilled sample_responses)) empty_world))
         = [200%Z])
  /\ (exists request,
        new_calls (sample_chatbot_handler (JObj []) (Fulfilled sample_responses))
                  empty_world = [request]
        /\ request_text request = Normal JUndefined
        /\ map status
             (sent_since empty_world
                (route (sample_chatbot_handler (JObj []) (Fulfilled sample_responses))
                       empty_world))
           = [200%Z]).
Proof.
  split.
  - apply (empty_or_missing_message_passes_through "buzz-women" dialogflow_sessionPath
             (JObj [("message", JStr "")]) (JStr ""));
      [reflexivity | left; reflexivity].
  - apply (empty_or_missing_message_passes_through "buzz-women" dialogflow_sessionPath
             (JObj []) JUndefined);
      [reflexivity | right; reflexivity].
Defined.

Lemma send_msg_rejection_unanswered_witness :
  parsed_body (JObj [("MSG", JStr "hello")]) = true
  /\ sent (route (sample_send_msg_handler (JObj [("MSG", JStr "hello")])
                    (Rejected sample_failure)) empty_world)
     = []
  /\ unhandled (route (sample_send_msg_handler (JObj [("MSG", JStr "hello")])
                         (Rejected sample_failure)) empty_world)
     = [sample_failure].
Proof.
  split; [reflexivity|].
  apply (send_msg_rejection_unanswered "1b9d6bcd-bbfd-4b2d-9b5d-ab8dfbbd4bed"
           dialogflow_sessionPath (JObj [("MSG", JStr "hello")]) sample_failure
           empty_world).
  reflexivity.
Defined.

Lemma http_interfaces_witness :
  parsed_body hello_body = true
  /\ printable (message_of hello_body) = true
  /\ new_calls (sample_chatbot_handler hello_body (Fulfilled sample_responses))
               empty_world
     = [Chatbot.botRequest "buzz-women" dialogflow_sessionPath (message_of hello_body)].
Proof.
  do 2 (split; [reflexivity|]).
  apply (http_interfaces "buzz-women" dialogflow_sessionPath
           sample_uuid dialogflow_sessionPath
           hello_body (Fulfilled sample_responses) empty_world eq_refl eq_refl).
Defined.

(** C7, as stated, fails: a [/send-msg] request whose parsed body is
    [{message: "hello"}] (or the empty object that the URL-encoded parser
    leaves of a JSON body) is answered with [{"Reply": ...}], which is
    neither [{"message": string | null}] nor [{"error": string}], and the
    outbound text is [undefined] because the handler reads [MSG]; the
    [/chatbot] answer to a successful call holds an object under [message]. *)
Lemma variants_do_not_share_one_interface :
  map json_body
    (new_sent (sample_send_msg_handler hello_body (Fulfilled sample_responses)) empty_world)
  = [Some (JObj [("Reply", JStr "Hi! How can I help?")])]
  /\ map spec_response_ok
       (new_sent (sample_send_msg_handler hello_body (Fulfilled sample_responses))
                 empty_world)
     = [false]
  /\ map spec_response_ok
       (new_sent (sample_send_msg_handler (JObj []) (Fulfilled sample_responses))
                 empty_world)
     = [false]
  /\ map request_text
       (new_calls (sample_send_msg_handler hello_body (Fulfilled sample_responses))
                  empty_world)
     = [Normal JUndefined]
  /\ map spec_response_ok
       (new_sent (sample_chatbot_handler hello_body (Fulfilled sample_responses))
                 empty_world)
     = [false].
Proof.
  repeat split; reflexivity.
Qed.

(** ** Concrete runs of the further properties *)

Lemma chatbot_run_answers_each_request_witness :
  Forall (fun r => parsed_body (fst r) = true
                   /\ printable (message_of (fst r)) = true
                   /\ reason_printable (snd r) = true) sample_requests
  /\ sent_since empty_world
       (Chatbot.serve "buzz-women" dialogflow_sessionPath sample_requests empty_world)
     = [mkResponse 200 (JObj [("message", sample_queryResult)]);
        mkResponse 200 (JObj [("message", JUndefined)])].
Proof.
  assert (Hrequests : Forall (fun r => parsed_body (fst r) = true
                                       /\ printable (message_of (fst r)) = true
                                       /\ reason_printable (snd r) = true)
                             sample_requests)
    by (repeat constructor).
  split; [exact Hrequests|].
  rewrite (chatbot_run_answers_each_request "buzz-women" dialogflow_sessionPath
             sample_requests empty_world Hrequests).
  reflexivity.
Defined.

Lemma chatbot_empty_body_cases_witness :
  get_prop hello_body "message" = Normal (JStr "hello")
  /\ reason_printable (Fulfilled sample_no_queryResult) = true
  /\ map json_body
       (new_sent (sample_chatbot_handler hello_body (Fulfilled sample_no_queryResult))
                 empty_world)
     = [Some (JObj [])].
Proof.
  do 2 (split; [reflexivity|]).
  apply (chatbot_empty_body_cases "buzz-women" dialogflow_sessionPath
           hello_body (JStr "hello") "hello" (Fulfilled sample_no_queryResult)
           empty_world eq_refl eq_refl eq_refl).
  right. right. exists sample_no_queryResult. split; reflexivity.
Defined.

Lemma missing_queryResult_is_silent_witness :
  get_prop hello_body "message" = Normal (JStr "hello")
  /\ get_index sample_no_queryResult 0 = Normal (JObj [])
  /\ get_prop (JObj []) "queryResult" = Normal JUndefined
  /\ new_console
       (sample_chatbot_handler hello_body (Fulfilled sample_no_queryResult))
       empty_world
     = ["messagehello"; "message hello"].
Proof.
  do 3 (split; [reflexivity|]).
  apply (missing_queryResult_is_silent "buzz-women" dialogflow_sessionPath
           hello_body (JStr "hello") sample_no_queryResult (JObj []) "hello"
           empty_world);
    reflexivity.
Defined.

Lemma unreadable_answer_is_logged_witness :
  get_prop hello_body "message" = Normal (JStr "hello")
  /\ queryResult_of (JArr []) = Throw (type_error "queryResult" "undefined")
  /\ new_sent (sample_chatbot_handler hello_body (Fulfilled (JArr []))) empty_world
     = [mkResponse 200 (JObj [("message", JUndefined)])].
Proof.
  do 2 (split; [reflexivity|]).
  apply (unreadable_answer_is_logged "buzz-women" dialogflow_sessionPath
           hello_body (JStr "hello") (JArr [])
           (type_error "queryResult" "undefined") "hello" empty_world);
    reflexivity.
Defined.

Lemma send_msg_unreadable_answer_unanswered_witness :
  parsed_body hello_MSG_body = true
  /\ queryResult_of sample_no_queryResult = Normal JUndefined
  /\ get_prop JUndefined "queryText" = Throw (type_error "queryText" "undefined")
  /\ sent (route (sample_send_msg_handler hello_MSG_body
                    (Fulfilled sample_no_queryResult)) empty_world)
     = []
  /\ unhandled (route (sample_send_msg_handler hello_MSG_body
                         (Fulfilled sample_no_queryResult)) empty_world)
     = [type_error "queryText" "undefined"].
Proof.
  do 3 (split; [reflexivity|]).
  apply (send_msg_unreadable_answer_unanswered sample_uuid dialogflow_sessionPath
           hello_MSG_body sample_no_queryResult
           (type_error "queryText" "undefined") empty_world eq_refl).
  right. exists JUndefined. split; reflexivity.
Defined.

Lemma send_msg_success_trace_witness :
  parsed_body hello_MSG_body = true
  /\ new_console (sample_send_msg_handler hello_MSG_body (Fulfilled sample_responses))
                 empty_world
     = ["Detected intent"; "  Query: hello"; "  Response: Hi! How can I help?";
        "  Intent: Default Welcome Intent"].
Proof.
  split; [reflexivity|].
  apply (send_msg_success_trace sample_uuid dialogflow_sessionPath
           hello_MSG_body sample_responses sample_queryResult
           (JStr "hello") (JStr "Hi! How can I help?")
           (JObj [("displayName", JStr "Default Welcome Intent")]) empty_world);
    reflexivity.
Defined.


